(** * The issue-reporting screen of civic-ai ([src/components/ReportIssue.tsx])

    A shallow embedding of the React component [ReportIssue]: its hooks are
    the fields of a record, every event handler is a function from the
    rendered snapshot of that record to an action on the world (component
    state, toasts shown, remote calls still in flight), and every [await]
    is a suspension that a later event resumes.  JavaScript numbers are
    IEEE 754 binary64 values, hence Rocq's primitive floats.

    A call and the reading of its body ([await fetch], then
    [await response.json()] or [response.text()]) settle in one event.
    Logging to the console and the effect that revokes the preview URL are
    left out: no handler reads what they write. *)

From Stdlib Require Import String Ascii List ZArith Bool Floats Lia.
Import ListNotations.

Set Warnings "-inexact-float".

Open Scope string_scope.
Open Scope list_scope.

(** ** The fragments of JavaScript the component relies on *)

Module Js.

(** [!!s] for a string: only the empty string is falsy. *)
Definition truthy (s : string) : bool := negb (s =? "").

(** [s || d] on strings. *)
Definition or_else (s d : string) : string := if truthy s then s else d.

(** A template literal: the pieces are concatenated in order. *)
Definition template (pieces : list string) : string := String.concat "" pieces.

(** [s.replace(c, d)] with one-character strings: only the first
    occurrence is replaced. *)
Fixpoint replace (c d : ascii) (s : string) : string :=
  match s with
  | EmptyString => EmptyString
  | String a rest =>
      if Ascii.eqb a c then String d rest else String a (replace c d rest)
  end.

(** What [fetch] and [response.json()] can come back with. *)
Inductive JsonResult (A : Type) : Type :=
| json_ok (value : A)
| json_error (message : string).
Arguments json_ok {A} value.
Arguments json_error {A} message.

Record Response (A : Type) : Type := mkResponse {
  status : Z;
  text : string;
  json : JsonResult A
}.
Arguments mkResponse {A} status text json.
Arguments status {A} r.
Arguments text {A} r.
Arguments json {A} r.

(** [response.ok]: the status is in the range 200-299. *)
Definition ok {A} (r : Response A) : bool :=
  ((200 <=? status r) && (status r <=? 299))%Z.

Inductive Settled (A : Type) : Type :=
| Fulfilled (response : Response A)
| Rejected (message : string).
Arguments Fulfilled {A} response.
Arguments Rejected {A} message.

End Js.

(** ** Data *)

Inductive Severity : Type := low | medium | high.

Definition Severity_value (v : Severity) : string :=
  match v with low => "low" | medium => "medium" | high => "high" end.

(** [interface AIAnalysis] *)
Record AIAnalysis : Type := mkAIAnalysis {
  is_match : bool;
  probability : float;
  severity : option Severity
}.

(** [type IssueType]: at run time a string; the three literals of the union
    are the values of the three [<option>]s of the select. *)
Definition IssueType : Type := string.

Definition issueType_options : list IssueType :=
  ["drainage"; "garbage_waste"; "pothole"].

Record File : Type := mkFile {
  file_name : string;
  file_type : string;
  file_bytes : string
}.

Record LatLng : Type := mkLatLng { lat : float; lng : float }.

(** The body of Nominatim's answer, as far as the component looks at it. *)
Inductive NominatimData : Type :=
| data_null
| data_object (display_name : option string).

Inductive FormValue : Type :=
| FormFile (f : File)
| FormText (s : string).

(** [FormData]: entries in the order they were appended. *)
Definition FormData : Type := list (string * FormValue).

Definition append (name : string) (value : FormValue) (fd : FormData) : FormData :=
  fd ++ [(name, value)].

Fixpoint FormData_get (name : string) (fd : FormData) : option FormValue :=
  match fd with
  | [] => None
  | (k, v) :: rest => if k =? name then Some v else FormData_get name rest
  end.

Definition FormData_has (name : string) (fd : FormData) : bool :=
  match FormData_get name fd with Some _ => true | None => false end.

Definition FormData_keys (fd : FormData) : list string := map fst fd.

Inductive Toast : Type :=
| ToastSuccess (message : string)
| ToastError (message : string).

Record Request : Type := mkRequest {
  url : string;
  method : string;
  headers : list (string * string);
  body : option FormData
}.

(** ** The hooks of the component *)

Record State : Type := mkState {
  image : option File;
  previewUrl : option string;
  location : option LatLng;
  address : string;
  description : string;
  issueType : IssueType;
  isAnalyzing : bool;
  showCamera : bool;
  aiAnalysis : option AIAnalysis;
  isSubmitting : bool
}.

(** The values given to [useState]. *)
Definition initialState : State :=
  {| image := None; previewUrl := None; location := None; address := "";
     description := ""; issueType := "drainage"; isAnalyzing := false;
     showCamera := false; aiAnalysis := None; isSubmitting := false |}.

(** ** The world around the component

    Each pending list holds the calls that were started and have not settled,
    oldest first, together with what the suspended handler captured. *)

Record World : Type := mkWorld {
  ui : State;
  toasts : list Toast;
  predictPending : list (IssueType * Request);
  geocodePending : list (LatLng * Request);
  reportPending : list Request;
  capturePending : list string
}.

Definition initial : World :=
  {| ui := initialState; toasts := []; predictPending := [];
     geocodePending := []; reportPending := []; capturePending := [] |}.

Definition Action : Type := World -> World.

Definition seq (a b : Action) : Action := fun w => b (a w).
Infix ">>" := seq (at level 61, left associativity).

Definition skip : Action := fun w => w.

Definition update (f : State -> State) : Action := fun w =>
  {| ui := f (ui w); toasts := toasts w; predictPending := predictPending w;
     geocodePending := geocodePending w; reportPending := reportPending w;
     capturePending := capturePending w |}.

Definition setImage (v : option File) : Action := update (fun s =>
  {| image := v; previewUrl := previewUrl s; location := location s;
     address := address s; description := description s;
     issueType := issueType s; isAnalyzing := isAnalyzing s;
     showCamera := showCamera s; aiAnalysis := aiAnalysis s;
     isSubmitting := isSubmitting s |}).

Definition setPreviewUrl (v : option string) : Action := update (fun s =>
  {| image := image s; previewUrl := v; location := location s;
     address := address s; description := description s;
     issueType := issueType s; isAnalyzing := isAnalyzing s;
     showCamera := showCamera s; aiAnalysis := aiAnalysis s;
     isSubmitting := isSubmitting s |}).

Definition setLocation (v : option LatLng) : Action := update (fun s =>
  {| image := image s; previewUrl := previewUrl s; location := v;
     address := address s; description := description s;
     issueType := issueType s; isAnalyzing := isAnalyzing s;
     showCamera := showCamera s; aiAnalysis := aiAnalysis s;
     isSubmitting := isSubmitting s |}).

Definition setAddress (v : string) : Action := update (fun s =>
  {| image := image s; previewUrl := previewUrl s; location := location s;
     address := v; description := description s;
     issueType := issueType s; isAnalyzing := isAnalyzing s;
     showCamera := showCamera s; aiAnalysis := aiAnalysis s;
     isSubmitting := isSubmitting s |}).

Definition setDescription (v : string) : Action := update (fun s =>
  {| image := image s; previewUrl := previewUrl s; location := location s;
     address := address s; description := v;
     issueType := issueType s; isAnalyzing := isAnalyzing s;
     showCamera := showCamera s; aiAnalysis := aiAnalysis s;
     isSubmitting := isSubmitting s |}).

Definition setIssueType (v : IssueType) : Action := update (fun s =>
  {| image := image s; previewUrl := previewUrl s; location := location s;
     address := address s; description := description s;
     issueType := v; isAnalyzing := isAnalyzing s;
     showCamera := showCamera s; aiAnalysis := aiAnalysis s;
     isSubmitting := isSubmitting s |}).

Definition setIsAnalyzing (v : bool) : Action := update (fun s =>
  {| image := image s; previewUrl := previewUrl s; location := location s;
     address := address s; description := description s;
     issueType := issueType s; isAnalyzing := v;
     showCamera := showCamera s; aiAnalysis := aiAnalysis s;
     isSubmitting := isSubmitting s |}).

Definition setShowCamera (v : bool) : Action := update (fun s =>
  {| image := image s; previewUrl := previewUrl s; location := location s;
     address := address s; description := description s;
     issueType := issueType s; isAnalyzing := isAnalyzing s;
     showCamera := v; aiAnalysis := aiAnalysis s;
     isSubmitting := isSubmitting s |}).

Definition setAiAnalysis (v : option AIAnalysis) : Action := update (fun s =>
  {| image := image s; previewUrl := previewUrl s; location := location s;
     address := address s; description := description s;
     issueType := issueType s; isAnalyzing := isAnalyzing s;
     showCamera := showCamera s; aiAnalysis := v;
     isSubmitting := isSubmitting s |}).

Definition setIsSubmitting (v : bool) : Action := update (fun s =>
  {| image := image s; previewUrl := previewUrl s; location := location s;
     address := address s; description := description s;
     issueType := issueType s; isAnalyzing := isAnalyzing s;
     showCamera := showCamera s; aiAnalysis := aiAnalysis s;
     isSubmitting := v |}).

Definition toast (t : Toast) : Action := fun w =>
  {| ui := ui w; toasts := toasts w ++ [t]; predictPending := predictPending w;
     geocodePending := geocodePending w; reportPending := reportPending w;
     capturePending := capturePending w |}.

Definition toast_success (message : string) : Action := toast (ToastSuccess message).
Definition toast_error (message : string) : Action := toast (ToastError message).

Definition setPredictPending (l : list (IssueType * Request)) : Action := fun w =>
  {| ui := ui w; toasts := toasts w; predictPending := l;
     geocodePending := geocodePending w; reportPending := reportPending w;
     capturePending := capturePending w |}.

Definition setGeocodePending (l : list (LatLng * Request)) : Action := fun w =>
  {| ui := ui w; toasts := toasts w; predictPending := predictPending w;
     geocodePending := l; reportPending := reportPending w;
     capturePending := capturePending w |}.

Definition setReportPending (l : list Request) : Action := fun w =>
  {| ui := ui w; toasts := toasts w; predictPending := predictPending w;
     geocodePending := geocodePending w; reportPending := l;
     capturePending := capturePending w |}.

Definition setCapturePending (l : list string) : Action := fun w =>
  {| ui := ui w; toasts := toasts w; predictPending := predictPending w;
     geocodePending := geocodePending w; reportPending := reportPending w;
     capturePending := l |}.

(** The list without its [n]th element: the call that has just settled. *)
Definition settle {A} (n : nat) (l : list A) : list A := firstn n l ++ skipn (S n) l.
Arguments settle : simpl never.

(** ** A sample session, to run the component on *)

Module Sample.

(** A stand-in for the engine's number printing: good enough to run a
    session, and nothing below depends on what it prints. *)
Definition show (x : float) : string := "<number>".

Definition photo : File :=
  {| file_name := "road.jpg"; file_type := "image/jpeg"; file_bytes := "JFIF" |}.

Definition photoUrl : string := "blob:road".

Definition verdict : AIAnalysis :=
  {| is_match := true; probability := 0.85; severity := Some high |}.

Definition lowMatch : AIAnalysis :=
  {| is_match := true; probability := 0.5; severity := Some low |}.

Definition pointA : LatLng := {| lat := 12.9; lng := 77.6 |}.
Definition pointB : LatLng := {| lat := 13.0; lng := 77.7 |}.

Definition answer {A} (code : Z) (value : A) : Js.Settled A :=
  Js.Fulfilled {| Js.status := code; Js.text := ""; Js.json := Js.json_ok value |}.

Definition named (name : string) : Js.Settled NominatimData :=
  answer 200 (data_object (Some name)).

Definition serverError : Js.Settled unit :=
  Js.Fulfilled {| Js.status := 500; Js.text := "Internal Server Error";
                  Js.json := Js.json_error "Unexpected token" |}.

End Sample.

(** ** The handlers *)

Section Component.

(** [Number.prototype.toString] and [Number.prototype.toFixed(1)] are the
    engine's: the component only passes their results on. *)
Variable Number_toString : float -> string.
Variable Number_toFixed1 : float -> string.

Definition percent (p : float) : string := Number_toFixed1 (p * 100)%float.

(** *** [analyzeImage] *)

Definition predictRequest (imageData : File) (category : IssueType) : Request :=
  let formData := [] in
  let formData := append "image" (FormFile imageData) formData in
  let formData := append "category" (FormText category) formData in
  {| url := "/predict"; method := "POST"; headers := []; body := Some formData |}.

(** Up to [await fetch('/predict', ...)]. *)
Definition analyzeImage (imageData : File) (category : IssueType) : Action :=
  setIsAnalyzing true >>
  (fun w => setPredictPending
              (predictPending w ++ [(category, predictRequest imageData category)]) w).

Definition analyzeImage_catch (message : string) : Action :=
  toast_error (Js.template ["Failed to analyze image: "; Js.or_else message "Unknown error"]).

(** From the settlement of the call to the end of [finally]. *)
Definition analyzeImage_resume (category : IssueType) (r : Js.Settled AIAnalysis) : Action :=
  match r with
  | Js.Fulfilled response =>
      if negb (Js.ok response) then analyzeImage_catch "Failed to analyze image"
      else
        match Js.json response with
        | Js.json_ok result =>
            setAiAnalysis (Some result) >>
            (if is_match result then
               toast_success (Js.template ["Confirmed: This is a "; category; " with ";
                                           percent (probability result); "% confidence."])
             else
               toast_error (Js.template ["This does not appear to be a "; category; " (";
                                         percent (probability result); "% confidence)."]))
        | Js.json_error message => analyzeImage_catch message
        end
  | Js.Rejected message => analyzeImage_catch message
  end >> setIsAnalyzing false.

(** *** [handleImageChange]; [objectUrl] is what [URL.createObjectURL]
    returned for the file. *)
Definition handleImageChange (files : list File) (objectUrl : string) : Action :=
  match files with
  | file :: _ =>
      setImage (Some file) >> setPreviewUrl (Some objectUrl) >> setAiAnalysis None
  | [] => skip
  end.

(** *** The [onChange] of the issue-type select, for the chosen option's
    value. *)
Definition issueType_onChange (value : IssueType) : Action := setIssueType value.

(** *** [handleScan] *)
Definition handleScan (s : State) : Action :=
  match image s with
  | Some img =>
      if Js.truthy (issueType s) then analyzeImage img (issueType s)
      else toast_error "Please upload or capture an image and select a category"
  | None => toast_error "Please upload or capture an image and select a category"
  end.

(** *** [capture]; [webcamRef_current] is [None] when no webcam is mounted
    and otherwise holds the result of [getScreenshot()]. *)
Definition capture (webcamRef_current : option (option string)) : Action :=
  match webcamRef_current with
  | Some getScreenshot =>
      match getScreenshot with
      | Some imageSrc =>
          if Js.truthy imageSrc then
            setPreviewUrl (Some imageSrc) >> setShowCamera false >>
            (fun w => setCapturePending (capturePending w ++ [imageSrc]) w)
          else toast_error "Failed to capture image"
      | None => toast_error "Failed to capture image"
      end
  | None => skip
  end.

(** After [await fetch(imageSrc)] and [await response.blob()]; a rejection
    is not caught and leaves the state as it is. *)
Definition capture_resume (blob : option string) : Action :=
  match blob with
  | Some bytes =>
      let file := {| file_name := "camera-capture.jpg"; file_type := "image/jpeg";
                     file_bytes := bytes |} in
      setImage (Some file) >> setAiAnalysis None
  | None => skip
  end.

(** *** [handleLocationSelect] *)

Definition geocodeRequest (coords : LatLng) : Request :=
  {| url := Js.template ["https://nominatim.openstreetmap.org/reverse?format=json&lat=";
                         Number_toString (lat coords); "&lon=";
                         Number_toString (lng coords); "&zoom=18&addressdetails=1"];
     method := "GET";
     headers := [("User-Agent", "CivicIssueReporter/1.0")];
     body := None |}.

Definition handleLocationSelect (coords : LatLng) : Action :=
  setLocation (Some coords) >>
  (fun w => setGeocodePending (geocodePending w ++ [(coords, geocodeRequest coords)]) w).

Definition handleLocationSelect_catch : Action :=
  toast_error "Failed to fetch address" >> setAddress "".

Definition handleLocationSelect_resume (r : Js.Settled NominatimData) : Action :=
  match r with
  | Js.Fulfilled response =>
      match Js.json response with
      | Js.json_ok data =>
          match data with
          | data_object (Some display_name) =>
              if Js.truthy display_name then setAddress display_name
              else setAddress "Address not found"
          | data_object None => setAddress "Address not found"
          | data_null => setAddress "Address not found"
          end
      | Js.json_error _ => handleLocationSelect_catch
      end
  | Js.Rejected _ => handleLocationSelect_catch
  end.

(** [handleMapClick] of the map component, which owns no other state the
    report depends on. *)
Definition handleMapClick (latLng : option LatLng) : Action :=
  match latLng with
  | Some coords => handleLocationSelect coords
  | None => skip
  end.

(** *** [handleSubmit] *)

Definition reportFormData (s : State) (image : File) (location : LatLng)
    (aiAnalysis : AIAnalysis) : FormData :=
  let formData := [] in
  let formData := append "image" (FormFile image) formData in
  let formData := append "type" (FormText (issueType s)) formData in
  let formData := append "latitude" (FormText (Number_toString (lat location))) formData in
  let formData := append "longitude" (FormText (Number_toString (lng location))) formData in
  let formData := append "address" (FormText (address s)) formData in
  let formData := append "description" (FormText (description s)) formData in
  if is_match aiAnalysis then
    let formData :=
      append "ai_probability" (FormText (Number_toString (probability aiAnalysis))) formData in
    append "ai_severity"
      (FormText match severity aiAnalysis with
                | Some v => Js.or_else (Severity_value v) ""
                | None => ""
                end) formData
  else
    append "ai_probability" (FormText "0") formData.

Definition reportRequest (formData : FormData) : Request :=
  {| url := "/reports"; method := "POST"; headers := []; body := Some formData |}.

(** Up to [await fetch('/reports', ...)]. *)
Definition handleSubmit (s : State) : Action :=
  match image s with
  | None => toast_error "Please upload or capture an image"
  | Some image =>
      match location s with
      | None => toast_error "Please select a location on the map"
      | Some location =>
          match aiAnalysis s with
          | None => toast_error "Please scan the image to confirm the issue"
          | Some aiAnalysis =>
              setIsSubmitting true >>
              (fun w => setReportPending
                 (reportPending w ++ [reportRequest (reportFormData s image location aiAnalysis)]) w)
          end
      end
  end.

Definition handleSubmit_catch (message : string) : Action :=
  toast_error (Js.template ["Failed to submit report: "; message]).

Definition handleSubmit_resume (r : Js.Settled unit) : Action :=
  match r with
  | Js.Fulfilled response =>
      if negb (Js.ok response) then
        handleSubmit_catch
          (Js.template ["Failed to submit report: "; Js.or_else (Js.text response) "Unknown error"])
      else toast_success "Report submitted successfully!"
  | Js.Rejected message => handleSubmit_catch message
  end >> setIsSubmitting false.

(** ** What is rendered *)

Inductive Advisory : Type := Confirmed | Unclear | NotMatching.

(** The nested conditional under [aiAnalysis &&]. *)
Definition advisory (a : AIAnalysis) : Advisory :=
  if is_match a then
    if (0.7 <=? probability a)%float then Confirmed else Unclear
  else NotMatching.

Record Paragraph : Type := mkParagraph { className : string; children : string }.

Definition renderAnalysis (s : State) (a : AIAnalysis) : Paragraph :=
  let label := Js.replace "_" " " (issueType s) in
  match advisory a with
  | Confirmed =>
      {| className := "text-sm text-green-600";
         children := Js.template ["Confirmed: This is a "; label; " with ";
                                  percent (probability a); "% confidence. Severity: ";
                                  match severity a with
                                  | Some v => Severity_value v
                                  | None => ""
                                  end] |}
  | Unclear =>
      {| className := "text-sm text-yellow-600";
         children := Js.template ["Possible "; label; ", but the image is unclear (";
                                  percent (probability a);
                                  "% confidence). Please upload a clearer photo."] |}
  | NotMatching =>
      {| className := "text-sm text-red-600";
         children := Js.template ["This does not appear to be a "; label; " (";
                                  percent (probability a); "% confidence)."] |}
  end.

(** The [disabled] attributes and the conditions under which a control is
    in the tree at all. *)
Definition cameraToggle_disabled (s : State) : bool := isAnalyzing s || isSubmitting s.
Definition fileInput_disabled (s : State) : bool := isAnalyzing s || isSubmitting s.
Definition webcam_rendered (s : State) : bool := showCamera s.
Definition preview_rendered (s : State) : bool :=
  match previewUrl s with
  | Some u => Js.truthy u && negb (showCamera s)
  | None => false
  end.
Definition scanButton_disabled (s : State) : bool := isAnalyzing s || isSubmitting s.
Definition description_disabled (s : State) : bool := isSubmitting s.
Definition submitButton_disabled (s : State) : bool := isSubmitting s.

(** ** Events

    What the user can do to the rendered tree, and the settlement of a
    pending call (the [n]th of its list).  A control that is disabled or
    not rendered delivers nothing. *)

Inductive Event : Type :=
| SelectIssueType (value : IssueType)
| ToggleCamera
| ChooseFiles (files : list File) (objectUrl : string)
| ClickCapture (getScreenshot : option string)
| ClickScan
| ClickMap (latLng : option LatLng)
| TypeDescription (value : string)
| ClickSubmit
| PredictSettled (n : nat) (r : Js.Settled AIAnalysis)
| GeocodeSettled (n : nat) (r : Js.Settled NominatimData)
| ReportSettled (n : nat) (r : Js.Settled unit)
| CaptureSettled (n : nat) (blob : option string).

Definition step (e : Event) (w : World) : World :=
  let s := ui w in
  match e with
  | SelectIssueType value =>
      if existsb (String.eqb value) issueType_options then issueType_onChange value w else w
  | ToggleCamera =>
      if cameraToggle_disabled s then w else setShowCamera (negb (showCamera s)) w
  | ChooseFiles files objectUrl =>
      if fileInput_disabled s then w else handleImageChange files objectUrl w
  | ClickCapture getScreenshot =>
      if webcam_rendered s then capture (Some getScreenshot) w else w
  | ClickScan =>
      if preview_rendered s && negb (scanButton_disabled s) then handleScan s w else w
  | ClickMap latLng => handleMapClick latLng w
  | TypeDescription value =>
      if description_disabled s then w else setDescription value w
  | ClickSubmit =>
      if submitButton_disabled s then w else handleSubmit s w
  | PredictSettled n r =>
      match nth_error (predictPending w) n with
      | Some (category, _) =>
          (setPredictPending (settle n (predictPending w)) >> analyzeImage_resume category r) w
      | None => w
      end
  | GeocodeSettled n r =>
      match nth_error (geocodePending w) n with
      | Some _ =>
          (setGeocodePending (settle n (geocodePending w)) >> handleLocationSelect_resume r) w
      | None => w
      end
  | ReportSettled n r =>
      match nth_error (reportPending w) n with
      | Some _ =>
          (setReportPending (settle n (reportPending w)) >> handleSubmit_resume r) w
      | None => w
      end
  | CaptureSettled n blob =>
      match nth_error (capturePending w) n with
      | Some _ =>
          (setCapturePending (settle n (capturePending w)) >> capture_resume blob) w
      | None => w
      end
  end.

(** The events of a session, in the order they happen. *)
Fixpoint run (es : list Event) (w : World) : World :=
  match es with
  | [] => w
  | e :: rest => run rest (step e w)
  end.

(** ** Vocabulary of the statements below *)

(** The remote submission failed: the call was rejected, or answered with a
    status outside 200-299. *)
Definition report_failed (r : Js.Settled unit) : bool :=
  match r with
  | Js.Fulfilled response => negb (Js.ok response)
  | Js.Rejected _ => true
  end.

(** The geocoder answered, and the answer carries no usable [display_name]. *)
Definition no_display_name (r : Js.Settled NominatimData) : bool :=
  match r with
  | Js.Fulfilled response =>
      match Js.json response with
      | Js.json_ok data_null => true
      | Js.json_ok (data_object None) => true
      | Js.json_ok (data_object (Some name)) => negb (Js.truthy name)
      | Js.json_error _ => false
      end
  | Js.Rejected _ => false
  end.

(** The geocoding call threw: the network failed or the body was not JSON. *)
Definition network_error (r : Js.Settled NominatimData) : bool :=
  match r with
  | Js.Fulfilled response =>
      match Js.json response with
      | Js.json_ok _ => false
      | Js.json_error _ => true
      end
  | Js.Rejected _ => true
  end.

(** The requirement a draft misses first, in the order image, location,
    classification. *)
Inductive MissingField : Type := MissingImage | MissingLocation | MissingClassification.

Definition first_missing (s : State) : option MissingField :=
  match image s, location s, aiAnalysis s with
  | None, _, _ => Some MissingImage
  | Some _, None, _ => Some MissingLocation
  | Some _, Some _, None => Some MissingClassification
  | Some _, Some _, Some _ => None
  end.

(** The message by which the component names each of them. *)
Definition MissingField_message (f : MissingField) : string :=
  match f with
  | MissingImage => "Please upload or capture an image"
  | MissingLocation => "Please select a location on the map"
  | MissingClassification => "Please scan the image to confirm the issue"
  end.

(** As many calls in flight as the two busy flags say. *)
Definition in_flight_agrees (w : World) : Prop :=
  length (predictPending w) = (if isAnalyzing (ui w) then 1 else 0) /\
  length (reportPending w) = (if isSubmitting (ui w) then 1 else 0).

(** The address a settled geocoding call leaves behind. *)
Definition geocodedAddress (r : Js.Settled NominatimData) : string :=
  address (ui (handleLocationSelect_resume r initial)).

(** The classification call failed: it was rejected, answered with a status
    outside 200-299, or with a body that is not JSON. *)
Definition predict_failed (r : Js.Settled AIAnalysis) : bool :=
  match r with
  | Js.Fulfilled response =>
      negb (Js.ok response) ||
      match Js.json response with
      | Js.json_ok _ => false
      | Js.json_error _ => true
      end
  | Js.Rejected _ => true
  end.

(** ** The map component ([src/components/GoogleMapComponent.tsx])

    Its one hook is the marker; the page is the report form together with
    the map mounted inside it. *)

Definition defaultCenter : LatLng := {| lat := 11.0168; lng := 76.9558 |}.

(** [useState(initialLocation || defaultCenter)], read when the map mounts. *)
Definition initialMarkerPosition (initialLocation : option LatLng) : LatLng :=
  match initialLocation with
  | Some position => position
  | None => defaultCenter
  end.

Record Page : Type := mkPage {
  form : World;
  markerPosition : LatLng
}.

Definition initialPage : Page :=
  {| form := initial;
     markerPosition := initialMarkerPosition (location (ui initial)) |}.

(** [handleMapClick] moves the marker and then calls [onLocationSelect];
    every other event leaves the map alone. *)
Definition page_step (e : Event) (p : Page) : Page :=
  {| form := step e (form p);
     markerPosition :=
       match e with
       | ClickMap (Some latLng) => latLng
       | _ => markerPosition p
       end |}.

Fixpoint page_run (es : list Event) (p : Page) : Page :=
  match es with
  | [] => p
  | e :: rest => page_run rest (page_step e p)
  end.

(** What holds of the draft in every state a session reaches. *)
Definition draft_consistent (w : World) : Prop :=
  (aiAnalysis (ui w) <> None -> image (ui w) <> None) /\
  (predictPending w <> [] -> image (ui w) <> None) /\
  (image (ui w) <> None -> previewUrl (ui w) <> None) /\
  (capturePending w <> [] -> previewUrl (ui w) <> None) /\
  (isAnalyzing (ui w) = true -> showCamera (ui w) = false).

(** A classification request as [analyzeImage] builds it, for one of the
    three categories. *)
Definition predict_wellformed (p : IssueType * Request) : Prop :=
  In (fst p) issueType_options /\ exists img, snd p = predictRequest img (fst p).

(** A geocoding request as [handleLocationSelect] builds it. *)
Definition geocode_wellformed (p : LatLng * Request) : Prop :=
  snd p = geocodeRequest (fst p).

(** A submission as [handleSubmit] builds it, for one of the three
    categories and with the description [d]. *)
Definition report_wellformed (d : string) (req : Request) : Prop :=
  exists s img loc a,
    In (issueType s) issueType_options /\ description s = d /\
    req = reportRequest (reportFormData s img loc a).

(** ** Lists of pending calls *)

Lemma nth_error_last {A} (l : list A) (x : A) : nth_error (l ++ [x]) (length l) = Some x.
Proof. induction l as [|a l IH]; simpl; [reflexivity | exact IH]. Qed.

Lemma settle_last {A} (l : list A) (x : A) : settle (length l) (l ++ [x]) = l.
Proof.
  unfold settle. induction l as [|a l IH]; simpl; [reflexivity|].
  simpl in IH. now rewrite IH.
Qed.

Lemma nth_error_very_last {A} (l : list A) (x y : A) :
  nth_error (l ++ [x; y]) (S (length l)) = Some y.
Proof. induction l as [|a l IH]; simpl; [reflexivity | exact IH]. Qed.

Lemma settle_very_last {A} (l : list A) (x y : A) :
  settle (S (length l)) (l ++ [x; y]) = l ++ [x].
Proof.
  unfold settle. induction l as [|a l IH]; simpl; [reflexivity|].
  simpl in IH. now rewrite IH.
Qed.

Lemma settle_single {A} (n : nat) (l : list A) :
  length l = 1 -> n < length l -> settle n l = [].
Proof.
  destruct l as [|a [|b l]]; simpl; try discriminate.
  intros _ Hn. destruct n as [|n]; [reflexivity | lia].
Qed.

Lemma nth_error_in_range {A} (l : list A) (n : nat) (x : A) :
  nth_error l n = Some x -> n < length l.
Proof. intros H. apply nth_error_Some. congruence. Qed.

(** ** Comparison of binary64 numbers *)

Lemma SFcompare_Lt_swap (a b : spec_float) :
  SFcompare a b = Some Lt -> SFcompare b a = Some Gt.
Proof.
  destruct a as [sa|sa| |sa ma ea], b as [sb|sb| |sb mb eb]; simpl;
    try discriminate; try (destruct sa; discriminate || reflexivity);
    try (destruct sb; discriminate || reflexivity);
    try (destruct sa, sb; discriminate || reflexivity).
  change (Pos.compare_cont Eq mb ma) with (Pos.compare mb ma).
  change (Pos.compare_cont Eq ma mb) with (Pos.compare ma mb).
  rewrite (Z.compare_antisym ea eb), (Pos.compare_antisym ma mb).
  destruct sa, sb; try discriminate; try reflexivity;
    destruct (ea ?= eb)%Z; simpl; try discriminate; try reflexivity;
    destruct (ma ?= mb)%positive; simpl; try discriminate; reflexivity.
Qed.

(** [x < y] excludes [y <= x], also when a NaN is involved. *)
Lemma ltb_not_leb (x y : float) : (x <? y)%float = true -> (y <=? x)%float = false.
Proof.
  rewrite ltb_spec, leb_spec. unfold SFltb, SFleb.
  destruct (SFcompare (Prim2SF x) (Prim2SF y)) as [[| |]|] eqn:E; try discriminate.
  intros _. now rewrite (SFcompare_Lt_swap _ _ E).
Qed.

(** *** What the resumed handlers leave alone *)

Ltac resume_cases :=
  repeat match goal with
         | |- context [match ?r with Js.Fulfilled _ => _ | Js.Rejected _ => _ end] => destruct r
         | |- context [if negb (Js.ok ?r) then _ else _] => destruct (Js.ok r)
         | |- context [match Js.json ?r with Js.json_ok _ => _ | Js.json_error _ => _ end] =>
             destruct (Js.json r)
         | |- context [if is_match ?a then _ else _] => destruct (is_match a)
         | |- context [match ?d with data_null => _ | data_object _ => _ end] => destruct d
         | |- context [match ?o with Some _ => _ | None => _ end] => destruct o
         | |- context [if Js.truthy ?s then _ else _] => destruct (Js.truthy s)
         end.

Lemma analyzeImage_resume_frame category r w :
  let w' := analyzeImage_resume category r w in
  isAnalyzing (ui w') = false /\
  isSubmitting (ui w') = isSubmitting (ui w) /\
  issueType (ui w') = issueType (ui w) /\
  predictPending w' = predictPending w /\
  reportPending w' = reportPending w.
Proof.
  unfold analyzeImage_resume, analyzeImage_catch, seq; cbn.
  resume_cases; cbn; repeat split; reflexivity.
Qed.

Lemma handleSubmit_resume_frame r w :
  let w' := handleSubmit_resume r w in
  isSubmitting (ui w') = false /\
  isAnalyzing (ui w') = isAnalyzing (ui w) /\
  issueType (ui w') = issueType (ui w) /\
  image (ui w') = image (ui w) /\
  location (ui w') = location (ui w) /\
  aiAnalysis (ui w') = aiAnalysis (ui w) /\
  address (ui w') = address (ui w) /\
  description (ui w') = description (ui w) /\
  predictPending w' = predictPending w /\
  reportPending w' = reportPending w.
Proof.
  unfold handleSubmit_resume, handleSubmit_catch, seq; cbn.
  resume_cases; cbn; repeat split; reflexivity.
Qed.

Lemma handleLocationSelect_resume_frame r w :
  let w' := handleLocationSelect_resume r w in
  isSubmitting (ui w') = isSubmitting (ui w) /\
  isAnalyzing (ui w') = isAnalyzing (ui w) /\
  issueType (ui w') = issueType (ui w) /\
  image (ui w') = image (ui w) /\
  location (ui w') = location (ui w) /\
  aiAnalysis (ui w') = aiAnalysis (ui w) /\
  description (ui w') = description (ui w) /\
  predictPending w' = predictPending w /\
  reportPending w' = reportPending w.
Proof.
  unfold handleLocationSelect_resume, handleLocationSelect_catch, seq; cbn.
  resume_cases; cbn; repeat split; reflexivity.
Qed.

(** *** At most one classification and one submission in flight *)

Lemma step_in_flight_agrees e w : in_flight_agrees w -> in_flight_agrees (step e w).
Proof.
  unfold in_flight_agrees. intros [Hp Hr].
  destruct e; unfold step.
  - destruct (existsb _ _); [cbn | ]; auto.
  - destruct (cameraToggle_disabled _); [ | cbn]; auto.
  - destruct (fileInput_disabled _); auto.
    unfold handleImageChange. destruct files; cbn; auto.
  - destruct (webcam_rendered _); auto.
    unfold capture. destruct getScreenshot as [src|]; [destruct (Js.truthy src)|]; cbn; auto.
  - unfold preview_rendered, scanButton_disabled.
    destruct (isAnalyzing (ui w)) eqn:Ea; [rewrite andb_false_r; rewrite Ea; auto|].
    destruct (isSubmitting (ui w)) eqn:Es; [rewrite andb_false_r; rewrite Ea, Es; auto|].
    destruct (match previewUrl (ui w) with Some u => _ | None => false end && _);
      [ | rewrite Ea, Es; auto].
    unfold handleScan, analyzeImage, seq.
    destruct (image (ui w)); [destruct (Js.truthy _)|]; cbn; rewrite ?Ea, ?Es; auto.
    split; auto. rewrite length_app, Hp. reflexivity.
  - unfold handleMapClick, handleLocationSelect, seq.
    destruct latLng; cbn; auto.
  - destruct (description_disabled _); [ | cbn]; auto.
  - unfold submitButton_disabled.
    destruct (isSubmitting (ui w)) eqn:Es; [rewrite Es; auto|].
    unfold handleSubmit, seq.
    destruct (image (ui w)); [destruct (location (ui w)); [destruct (aiAnalysis (ui w))|]|];
      cbn; rewrite ?Es; auto.
    split; auto. rewrite length_app, Hr. reflexivity.
  - destruct (nth_error (predictPending w) n) as [[category req]|] eqn:En; auto.
    apply nth_error_in_range in En.
    destruct (analyzeImage_resume_frame category r
                (setPredictPending (settle n (predictPending w)) w))
      as (Ha & Hs & _ & Hpp & Hrp).
    unfold seq. rewrite Ha, Hs, Hpp, Hrp. cbn.
    destruct (isAnalyzing (ui w)); [ | lia].
    rewrite (settle_single n _ Hp En). auto.
  - destruct (nth_error (geocodePending w) n) eqn:En; auto.
    destruct (handleLocationSelect_resume_frame r
                (setGeocodePending (settle n (geocodePending w)) w))
      as (Hs & Ha & _ & _ & _ & _ & _ & Hpp & Hrp).
    unfold seq. rewrite Ha, Hs, Hpp, Hrp. cbn. auto.
  - destruct (nth_error (reportPending w) n) eqn:En; auto.
    apply nth_error_in_range in En.
    destruct (handleSubmit_resume_frame r
                (setReportPending (settle n (reportPending w)) w))
      as (Hs & Ha & _ & _ & _ & _ & _ & _ & Hpp & Hrp).
    unfold seq. rewrite Ha, Hs, Hpp, Hrp. cbn.
    destruct (isSubmitting (ui w)); [ | lia].
    rewrite (settle_single n _ Hr En). auto.
  - destruct (nth_error (capturePending w) n) eqn:En; auto.
    unfold capture_resume, seq. destruct blob; cbn; auto.
Qed.

Lemma run_in_flight_agrees es w : in_flight_agrees w -> in_flight_agrees (run es w).
Proof.
  revert w. induction es as [|e es IH]; intros w H; simpl; [exact H|].
  apply IH, step_in_flight_agrees, H.
Qed.

Lemma initial_in_flight_agrees : in_flight_agrees initial.
Proof. split; reflexivity. Qed.

(** *** Invalidation of the verdict *)

(** C1 (the code departs from it).  Choosing a file, and the end of a camera
    capture, clear the stored verdict.  Changing the selected category does
    not: the select's [onChange] only stores the new category, so the
    verdict obtained for the previous category stays in place, as it does
    for the classified sample session when "pothole" is selected. *)
Theorem C1_category_change_keeps_verdict :
  (forall file files objectUrl w,
      aiAnalysis (ui (handleImageChange (file :: files) objectUrl w)) = None) /\
  (forall bytes w, aiAnalysis (ui (capture_resume (Some bytes) w)) = None) /\
  (forall value w, aiAnalysis (ui (issueType_onChange value w)) = aiAnalysis (ui w)) /\
  (let classified :=
     run [ChooseFiles [Sample.photo] Sample.photoUrl; ClickScan;
          PredictSettled 0 (Sample.answer 200 Sample.verdict)] initial in
   aiAnalysis (ui classified) = Some Sample.verdict /\
   aiAnalysis (ui (step (SelectIssueType "pothole") classified)) = Some Sample.verdict /\
   issueType (ui (step (SelectIssueType "pothole") classified)) = "pothole").
Proof.
  repeat split.
Qed.

(** *** Submission of an incomplete draft *)

Lemma MissingField_message_inj f g :
  MissingField_message f = MissingField_message g -> f = g.
Proof. destruct f, g; cbn; intros H; try reflexivity; discriminate H. Qed.

(** C3.  When the image, the location or the verdict is absent,
    [handleSubmit] does nothing but show one error, which names the first
    missing requirement in the order image, location, classification; no
    submission request is issued and the state is unchanged. *)
Theorem C3_submit_names_first_missing_field s w :
  image s = None \/ location s = None \/ aiAnalysis s = None ->
  exists f,
    first_missing s = Some f /\
    handleSubmit s w = toast_error (MissingField_message f) w /\
    toasts (handleSubmit s w) = toasts w ++ [ToastError (MissingField_message f)] /\
    (forall g, MissingField_message g = MissingField_message f -> g = f) /\
    reportPending (handleSubmit s w) = reportPending w /\
    ui (handleSubmit s w) = ui w.
Proof.
  intros H. unfold handleSubmit, first_missing.
  destruct (image s) as [img|].
  - destruct (location s) as [loc|].
    + destruct (aiAnalysis s) as [a|].
      * destruct H as [H|[H|H]]; discriminate H.
      * exists MissingClassification.
        repeat split; intros g; apply MissingField_message_inj.
    + exists MissingLocation. repeat split; intros g; apply MissingField_message_inj.
  - exists MissingImage. repeat split; intros g; apply MissingField_message_inj.
Qed.

(** *** The outbound record *)

Lemma handleSubmit_complete s w img loc a :
  image s = Some img -> location s = Some loc -> aiAnalysis s = Some a ->
  handleSubmit s w =
    setReportPending (reportPending w ++ [reportRequest (reportFormData s img loc a)])
      (setIsSubmitting true w).
Proof.
  intros Hi Hl Ha. unfold handleSubmit. rewrite Hi, Hl, Ha. reflexivity.
Qed.


(** C10.  In the record built for a matching verdict without a severity,
    ai_severity is present and empty; in the record built for a verdict
    that does not match, there is no ai_severity entry at all. *)
Theorem C10_severity_field s img loc p :
  FormData_get "ai_severity"
    (reportFormData s img loc {| is_match := true; probability := p; severity := None |})
    = Some (FormText "") /\
  (forall sev,
      FormData_has "ai_severity"
        (reportFormData s img loc {| is_match := false; probability := p; severity := sev |})
        = false /\
      ~ In "ai_severity"
        (FormData_keys
           (reportFormData s img loc {| is_match := false; probability := p; severity := sev |}))).
Proof.
  split; [reflexivity|].
  intros sev. split; [reflexivity|].
  cbn. intros H. repeat (destruct H as [H|H]; [discriminate H|]). exact H.
Qed.

(** *** A failed submission *)

(** C6.  When the submission call fails (rejected, or a status outside
    200-299), the component is back in the state it had before the click on
    submit, with image, location and verdict as they were; one error is
    shown; submit is enabled again, and clicking it sends the same record. *)
Theorem C6_failed_submission_keeps_draft w img loc a r :
  image (ui w) = Some img -> location (ui w) = Some loc -> aiAnalysis (ui w) = Some a ->
  isSubmitting (ui w) = false ->
  report_failed r = true ->
  let record := reportRequest (reportFormData (ui w) img loc a) in
  let w1 := step ClickSubmit w in
  let w2 := step (ReportSettled (length (reportPending w)) r) w1 in
  reportPending w1 = reportPending w ++ [record] /\
  isSubmitting (ui w1) = true /\
  ui w2 = ui w /\
  reportPending w2 = reportPending w /\
  (exists message, toasts w2 = toasts w ++ [ToastError message]) /\
  submitButton_disabled (ui w2) = false /\
  reportPending (step ClickSubmit w2) = reportPending w2 ++ [record].
Proof.
  destruct w as [[im pu lo ad de it ia sc ai isub] ts pp gp rp cp]; cbn.
  intros -> -> -> -> Hr. unfold step; cbn.
  rewrite nth_error_last, settle_last.
  unfold handleSubmit_resume, handleSubmit_catch, seq.
  destruct r as [response|message]; cbn in Hr |- *; [rewrite Hr|]; cbn;
    repeat split; eexists; reflexivity.
Qed.

(** *** The advisory shown for a verdict *)

(** C7 (the code departs from it).  The panel rendered for a verdict
    follows the policy: no match when [is_match] is false, unclear when it
    is true with a probability below 0.7, confirmed when it is true with a
    probability of at least 0.7; and the submission does not look at 0.7:
    with any verdict a complete draft is sent, and a matching verdict puts
    its probability and severity in the record on either side of 0.7.  The
    toast shown when the verdict arrives does not follow the policy: it
    tests [is_match] only, so every match is announced as "Confirmed",
    below 0.7 too.  For the sample session answered with a match of
    probability 0.5, the panel is the unclear one and the toast is the
    success toast "Confirmed: This is a drainage ...". *)
Theorem C7_toast_ignores_the_threshold (a : AIAnalysis) :
  (is_match a = false -> advisory a = NotMatching) /\
  (is_match a = true -> (probability a <? 0.7)%float = true -> advisory a = Unclear) /\
  (is_match a = true -> (0.7 <=? probability a)%float = true -> advisory a = Confirmed) /\
  (forall s, className (renderAnalysis s a) =
             match advisory a with
             | Confirmed => "text-sm text-green-600"
             | Unclear => "text-sm text-yellow-600"
             | NotMatching => "text-sm text-red-600"
             end) /\
  (forall s w img loc,
      image s = Some img -> location s = Some loc -> aiAnalysis s = Some a ->
      reportPending (handleSubmit s w) =
        reportPending w ++ [reportRequest (reportFormData s img loc a)]) /\
  (forall s img loc,
      is_match a = true ->
      reportFormData s img loc a =
        [("image", FormFile img); ("type", FormText (issueType s));
         ("latitude", FormText (Number_toString (lat loc)));
         ("longitude", FormText (Number_toString (lng loc)));
         ("address", FormText (address s)); ("description", FormText (description s));
         ("ai_probability", FormText (Number_toString (probability a)));
         ("ai_severity", FormText match severity a with
                                  | Some v => Severity_value v
                                  | None => ""
                                  end)]) /\
  (forall category response w,
      Js.ok response = true -> Js.json response = Js.json_ok a ->
      toasts (analyzeImage_resume category (Js.Fulfilled response) w) =
        toasts w ++
        [if is_match a then
           ToastSuccess (Js.template ["Confirmed: This is a "; category; " with ";
                                      percent (probability a); "% confidence."])
         else
           ToastError (Js.template ["This does not appear to be a "; category; " (";
                                    percent (probability a); "% confidence)."])]) /\
  (let w :=
     run [ChooseFiles [Sample.photo] Sample.photoUrl; ClickScan;
          PredictSettled 0 (Sample.answer 200 Sample.lowMatch)] initial in
   aiAnalysis (ui w) = Some Sample.lowMatch /\
   advisory Sample.lowMatch = Unclear /\
   className (renderAnalysis (ui w) Sample.lowMatch) = "text-sm text-yellow-600" /\
   toasts w =
     [ToastSuccess (Js.template ["Confirmed: This is a "; "drainage"; " with ";
                                 percent 0.5; "% confidence."])]).
Proof.
  split; [|split; [|split; [|split; [|split; [|split; [|split]]]]]].
  - unfold advisory. intros ->. reflexivity.
  - unfold advisory. intros -> H. now rewrite (ltb_not_leb _ _ H).
  - unfold advisory. intros -> ->. reflexivity.
  - intros s. unfold renderAnalysis, advisory.
    destruct (is_match a); [destruct (0.7 <=? probability a)%float|]; reflexivity.
  - intros s w img loc Hi Hl Ha.
    now rewrite (handleSubmit_complete s w img loc a Hi Hl Ha).
  - intros s img loc Hm. unfold reportFormData. rewrite Hm. cbn.
    destruct (severity a) as [[| |]|]; reflexivity.
  - intros category response w Hok Hj.
    unfold analyzeImage_resume, seq. rewrite Hok, Hj. cbn.
    destruct (is_match a); reflexivity.
  - cbv zeta. split; [reflexivity|]. split; [reflexivity|]. split; reflexivity.
Qed.

(** *** The selected category *)

Lemma step_issueType e w :
  issueType (ui (step e w)) = issueType (ui w) \/
  exists value, e = SelectIssueType value /\ In value issueType_options /\
                issueType (ui (step e w)) = value.
Proof.
  destruct e; unfold step.
  - destruct (existsb _ _) eqn:E; [right | left; reflexivity].
    exists value. repeat split.
    apply existsb_exists in E. destruct E as (x & Hx & Hxv).
    apply String.eqb_eq in Hxv. now subst.
  - left. destruct (cameraToggle_disabled _); reflexivity.
  - left. destruct (fileInput_disabled _); [reflexivity|].
    unfold handleImageChange. destruct files; reflexivity.
  - left. destruct (webcam_rendered _); [|reflexivity].
    unfold capture. destruct getScreenshot as [src|]; [destruct (Js.truthy src)|]; reflexivity.
  - left. destruct (preview_rendered _ && _); [|reflexivity].
    unfold handleScan. destruct (image (ui w)); [destruct (Js.truthy _)|]; reflexivity.
  - left. destruct latLng; reflexivity.
  - left. destruct (description_disabled _); reflexivity.
  - left. destruct (submitButton_disabled _); [reflexivity|].
    unfold handleSubmit.
    destruct (image (ui w)); [destruct (location (ui w)); [destruct (aiAnalysis (ui w))|]|];
      reflexivity.
  - left. destruct (nth_error (predictPending w) n) as [[category req]|]; [|reflexivity].
    unfold seq.
    now destruct (analyzeImage_resume_frame category r
                    (setPredictPending (settle n (predictPending w)) w))
      as (_ & _ & -> & _).
  - left. destruct (nth_error (geocodePending w) n); [|reflexivity].
    unfold seq.
    now destruct (handleLocationSelect_resume_frame r
                    (setGeocodePending (settle n (geocodePending w)) w))
      as (_ & _ & -> & _).
  - left. destruct (nth_error (reportPending w) n); [|reflexivity].
    unfold seq.
    now destruct (handleSubmit_resume_frame r
                    (setReportPending (settle n (reportPending w)) w))
      as (_ & _ & -> & _).
  - left. destruct (nth_error (capturePending w) n); [|reflexivity].
    unfold capture_resume, seq. destruct blob; reflexivity.
Qed.

Lemma run_issueType es w :
  In (issueType (ui w)) issueType_options ->
  In (issueType (ui (run es w))) issueType_options.
Proof.
  revert w. induction es as [|e es IH]; intros w H; simpl; [exact H|].
  apply IH. destruct (step_issueType e w) as [-> | (value & _ & Hin & ->)]; assumption.
Qed.

Lemma options_truthy value : In value issueType_options -> Js.truthy value = true.
Proof.
  intros H. repeat (destruct H as [<-|H]; [reflexivity|]). destruct H.
Qed.

(** C9.  The category starts as "drainage"; an event leaves it alone or
    replaces it by the value of one of the three options; so in every state
    a session can reach it is one of the three, it is truthy, and
    [handleScan] refuses exactly when there is no image. *)
Theorem C9_category_is_always_set es :
  let w := run es initial in
  issueType (ui initial) = "drainage" /\
  In (issueType (ui w)) issueType_options /\
  (forall e, issueType (ui (step e w)) = issueType (ui w) \/
             In (issueType (ui (step e w))) issueType_options) /\
  (image (ui w) = None ->
   forall w', handleScan (ui w) w' =
              toast_error "Please upload or capture an image and select a category" w') /\
  (forall img, image (ui w) = Some img ->
   forall w', handleScan (ui w) w' = analyzeImage img (issueType (ui w)) w' /\
              predictPending (handleScan (ui w) w') =
                predictPending w' ++ [(issueType (ui w), predictRequest img (issueType (ui w)))]).
Proof.
  intros w.
  assert (Hin : In (issueType (ui w)) issueType_options).
  { apply run_issueType. left. reflexivity. }
  split; [reflexivity|]. split; [exact Hin|]. split.
  - intros e. destruct (step_issueType e w) as [H | (value & _ & Hv & H)].
    + left. exact H.
    + right. now rewrite H.
  - split.
    + intros Hi w'. unfold handleScan. now rewrite Hi.
    + intros img Hi w'. unfold handleScan. rewrite Hi, (options_truthy _ Hin).
      split; reflexivity.
Qed.

(** *** Geocoding *)

Lemma handleLocationSelect_resume_address r w :
  address (ui (handleLocationSelect_resume r w)) = geocodedAddress r.
Proof.
  unfold geocodedAddress, handleLocationSelect_resume, handleLocationSelect_catch, seq.
  resume_cases; reflexivity.
Qed.

Lemma geocodedAddress_display_name response name :
  Js.json response = Js.json_ok (data_object (Some name)) -> Js.truthy name = true ->
  geocodedAddress (Js.Fulfilled response) = name.
Proof.
  intros Hj Ht. unfold geocodedAddress, handleLocationSelect_resume.
  now rewrite Hj, Ht.
Qed.

(** C5 (as the code has it).  Answers of the geocoder are applied in the
    order they arrive, whatever the current location is: after selecting A
    and then B, with B's answer arriving before A's, the location is B and
    the address is the one resolved for A. *)
Theorem C5_last_arrival_wins w A B rA rB :
  let n := length (geocodePending w) in
  let w2 := step (ClickMap (Some B)) (step (ClickMap (Some A)) w) in
  let w3 := step (GeocodeSettled (S n) rB) w2 in
  let w4 := step (GeocodeSettled n rA) w3 in
  geocodePending w2 = geocodePending w ++ [(A, geocodeRequest A); (B, geocodeRequest B)] /\
  location (ui w2) = Some B /\
  geocodePending w3 = geocodePending w ++ [(A, geocodeRequest A)] /\
  address (ui w3) = geocodedAddress rB /\
  geocodePending w4 = geocodePending w /\
  location (ui w4) = Some B /\
  address (ui w4) = geocodedAddress rA /\
  (forall response name,
      rA = Js.Fulfilled response ->
      Js.json response = Js.json_ok (data_object (Some name)) -> Js.truthy name = true ->
      address (ui w4) = name).
Proof.
  intros n w2 w3 w4.
  assert (H2 : geocodePending w2 =
               geocodePending w ++ [(A, geocodeRequest A); (B, geocodeRequest B)]).
  { subst w2. unfold step, handleMapClick, handleLocationSelect, seq. cbn.
    now rewrite <- app_assoc. }
  assert (L2 : location (ui w2) = Some B) by reflexivity.
  clearbody w2.
  assert (E3 : w3 = handleLocationSelect_resume rB
                      (setGeocodePending (geocodePending w ++ [(A, geocodeRequest A)]) w2)).
  { subst w3. unfold step. rewrite H2. subst n.
    now rewrite nth_error_very_last, settle_very_last. }
  clearbody w3.
  destruct (handleLocationSelect_resume_frame rB
              (setGeocodePending (geocodePending w ++ [(A, geocodeRequest A)]) w2))
    as (_ & _ & _ & _ & L3 & _ & _ & _ & _).
  rewrite <- E3 in L3. cbn in L3. rewrite L2 in L3.
  assert (H3 : geocodePending w3 = geocodePending w ++ [(A, geocodeRequest A)]).
  { rewrite E3. unfold handleLocationSelect_resume, handleLocationSelect_catch, seq.
    resume_cases; reflexivity. }
  assert (E4 : w4 = handleLocationSelect_resume rA (setGeocodePending (geocodePending w) w3)).
  { subst w4. unfold step. rewrite H3. subst n.
    now rewrite nth_error_last, settle_last. }
  clearbody w4.
  destruct (handleLocationSelect_resume_frame rA (setGeocodePending (geocodePending w) w3))
    as (_ & _ & _ & _ & L4 & _ & _ & _ & _).
  rewrite <- E4 in L4. cbn in L4. rewrite L3 in L4.
  assert (A4 : address (ui w4) = geocodedAddress rA).
  { rewrite E4. apply handleLocationSelect_resume_address. }
  repeat split.
  - exact H2.
  - exact L2.
  - exact H3.
  - rewrite E3. apply handleLocationSelect_resume_address.
  - rewrite E4. unfold handleLocationSelect_resume, handleLocationSelect_catch, seq.
    resume_cases; reflexivity.
  - exact L4.
  - exact A4.
  - intros response name -> Hj Ht. rewrite A4.
    now apply geocodedAddress_display_name.
Qed.

(** C8 (as the code has it).  When the geocoding started by a selection
    fails, the location keeps the selected coordinates and the address is
    overwritten: with "Address not found" when the answer has no
    display_name, with the empty string, next to an error toast, when the
    call threw.  The coordinates are enough to submit: with an image and a
    verdict present, a click on submit sends them. *)
Theorem C8_geocoding_failure w coords r :
  no_display_name r = true \/ network_error r = true ->
  let w1 := step (ClickMap (Some coords)) w in
  let w2 := step (GeocodeSettled (length (geocodePending w)) r) w1 in
  location (ui w1) = Some coords /\
  location (ui w2) = Some coords /\
  (no_display_name r = true ->
   address (ui w2) = "Address not found" /\ toasts w2 = toasts w) /\
  (network_error r = true ->
   address (ui w2) = "" /\ toasts w2 = toasts w ++ [ToastError "Failed to fetch address"]) /\
  (forall img a,
      image (ui w) = Some img -> aiAnalysis (ui w) = Some a -> isSubmitting (ui w) = false ->
      exists formData,
        reportPending (step ClickSubmit w2) = reportPending w ++ [reportRequest formData] /\
        FormData_get "latitude" formData = Some (FormText (Number_toString (lat coords))) /\
        FormData_get "longitude" formData = Some (FormText (Number_toString (lng coords))) /\
        FormData_get "address" formData = Some (FormText (address (ui w2)))).
Proof.
  intros Hfail w1 w2.
  assert (E2 : w2 = handleLocationSelect_resume r
                      (setGeocodePending (geocodePending w) w1)).
  { subst w2 w1. unfold step, handleMapClick, handleLocationSelect, seq. cbn.
    now rewrite nth_error_last, settle_last. }
  assert (L1 : location (ui w1) = Some coords) by reflexivity.
  assert (F1 : image (ui w1) = image (ui w) /\ aiAnalysis (ui w1) = aiAnalysis (ui w) /\
               isSubmitting (ui w1) = isSubmitting (ui w) /\
               reportPending w1 = reportPending w /\ toasts w1 = toasts w)
    by (repeat split).
  clearbody w1 w2.
  destruct F1 as (I1 & A1 & S1 & R1 & T1).
  destruct (handleLocationSelect_resume_frame r (setGeocodePending (geocodePending w) w1))
    as (S2 & _ & _ & I2 & L2 & A2 & _ & _ & R2).
  rewrite <- E2 in S2, I2, L2, A2, R2. cbn in S2, I2, L2, A2, R2.
  rewrite L1 in L2. rewrite I1 in I2. rewrite A1 in A2. rewrite S1 in S2. rewrite R1 in R2.
  split; [exact L1|]. split; [exact L2|]. split; [|split].
  - intros H. rewrite E2.
    unfold no_display_name in H.
    unfold handleLocationSelect_resume, handleLocationSelect_catch, seq.
    destruct r as [response|message]; [|discriminate H].
    destruct (Js.json response) as [[|[name|]]|message]; try discriminate H;
      [|destruct (Js.truthy name); [discriminate H|]|]; cbn; rewrite T1; split; reflexivity.
  - intros H. rewrite E2.
    unfold network_error in H.
    unfold handleLocationSelect_resume, handleLocationSelect_catch, seq.
    destruct r as [response|message];
      [destruct (Js.json response) as [data|message]; [discriminate H|]|];
      cbn; rewrite T1; split; reflexivity.
  - intros img a Hi Ha Hs.
    exists (reportFormData (ui w2) img coords a).
    unfold step, submitButton_disabled. rewrite S2, Hs.
    rewrite (handleSubmit_complete (ui w2) w2 img coords a);
      [| now rewrite I2 | exact L2 | now rewrite A2].
    cbn. rewrite R2. repeat split.
    + unfold reportFormData. destruct (is_match a); reflexivity.
    + unfold reportFormData. destruct (is_match a); reflexivity.
    + unfold reportFormData. destruct (is_match a); reflexivity.
Qed.

(** *** Calls in flight *)

(** C2 (as the code has it).  Along every session at most one
    classification call and at most one submission call are in flight,
    because the controls are disabled: while a classification is
    outstanding the scan button delivers no click, while a submission is
    outstanding neither the submit button nor the scan button does, and
    such a click changes nothing: no second call and no error shown. *)
Theorem C2_one_call_in_flight es :
  let w := run es initial in
  length (predictPending w) <= 1 /\
  length (reportPending w) <= 1 /\
  (predictPending w <> [] -> scanButton_disabled (ui w) = true /\ step ClickScan w = w) /\
  (reportPending w <> [] ->
   submitButton_disabled (ui w) = true /\ step ClickSubmit w = w /\ step ClickScan w = w).
Proof.
  intros w.
  destruct (run_in_flight_agrees es initial initial_in_flight_agrees) as [Hp Hr].
  fold w in Hp, Hr. clearbody w.
  repeat split.
  - rewrite Hp. destruct (isAnalyzing (ui w)); lia.
  - rewrite Hr. destruct (isSubmitting (ui w)); lia.
  - unfold scanButton_disabled. destruct (isAnalyzing (ui w)); [reflexivity|].
    destruct (predictPending w); [contradiction | discriminate Hp].
  - unfold step, scanButton_disabled. destruct (isAnalyzing (ui w)).
    + now rewrite andb_false_r.
    + destruct (predictPending w); [contradiction | discriminate Hp].
  - unfold submitButton_disabled. destruct (isSubmitting (ui w)); [reflexivity|].
    destruct (reportPending w); [contradiction | discriminate Hr].
  - unfold step, submitButton_disabled. destruct (isSubmitting (ui w)); [reflexivity|].
    destruct (reportPending w); [contradiction | discriminate Hr].
  - unfold step, scanButton_disabled. destruct (isSubmitting (ui w)).
    + now rewrite orb_true_r, andb_false_r.
    + destruct (reportPending w); [contradiction | discriminate Hr].
Qed.

(** ** Further properties of the handlers *)

(** *** [analyzeImage] *)

(** X1.  When a classification call fails (rejected, status outside
    200-299, or a body that is not JSON), the draft is as it was, an earlier
    verdict included; only the analyzing flag is reset, the call leaves the
    pending list, and one error toast starting with "Failed to analyze
    image: " is shown. *)
Theorem X1_failed_classification_keeps_draft n category req r w :
  nth_error (predictPending w) n = Some (category, req) ->
  predict_failed r = true ->
  let w' := step (PredictSettled n r) w in
  ui w' = ui (setIsAnalyzing false w) /\
  aiAnalysis (ui w') = aiAnalysis (ui w) /\
  image (ui w') = image (ui w) /\
  predictPending w' = settle n (predictPending w) /\
  reportPending w' = reportPending w /\
  exists message,
    toasts w' = toasts w ++ [ToastError (Js.template ["Failed to analyze image: "; message])].
Proof.
  intros Hn Hr. unfold step. rewrite Hn.
  unfold analyzeImage_resume, analyzeImage_catch, predict_failed, seq in *.
  destruct r as [response|message].
  - destruct (Js.ok response); cbn in Hr |- *.
    + destruct (Js.json response) as [result|message]; [discriminate Hr|].
      cbn. repeat split. eexists; reflexivity.
    + repeat split. eexists; reflexivity.
  - cbn. repeat split. eexists; reflexivity.
Qed.

(** X2.  When a classification call succeeds, its result becomes the
    verdict without a look at the image or the category the form holds by
    then; the toast (success for a match, error otherwise) names the category
    the call was started with. *)
Theorem X2_verdict_stored_as_received n category req response result w :
  nth_error (predictPending w) n = Some (category, req) ->
  Js.ok response = true ->
  Js.json response = Js.json_ok result ->
  let w' := step (PredictSettled n (Js.Fulfilled response)) w in
  ui w' = ui ((setAiAnalysis (Some result) >> setIsAnalyzing false) w) /\
  aiAnalysis (ui w') = Some result /\
  issueType (ui w') = issueType (ui w) /\
  image (ui w') = image (ui w) /\
  predictPending w' = settle n (predictPending w) /\
  toasts w' =
    toasts w ++
    [if is_match result then
       ToastSuccess (Js.template ["Confirmed: This is a "; category; " with ";
                                  percent (probability result); "% confidence."])
     else
       ToastError (Js.template ["This does not appear to be a "; category; " (";
                                percent (probability result); "% confidence)."])].
Proof.
  intros Hn Hok Hj. unfold step. rewrite Hn.
  unfold analyzeImage_resume, seq. rewrite Hok, Hj. cbn.
  destruct (is_match result); cbn; repeat split.
Qed.

(** *** [capture] *)

(** X3.  A capture for which the webcam gives no screenshot (null or the
    empty string) shows "Failed to capture image" and changes nothing else:
    the camera stays open and nothing is pending. *)
Theorem X3_capture_without_screenshot w getScreenshot :
  showCamera (ui w) = true ->
  getScreenshot = None \/ getScreenshot = Some "" ->
  step (ClickCapture getScreenshot) w = toast_error "Failed to capture image" w.
Proof.
  intros Hc H. unfold step, webcam_rendered. rewrite Hc.
  destruct H as [-> | ->]; reflexivity.
Qed.

(** X4.  A capture with a screenshot shows it as the preview and closes the
    camera at once, while the image and the verdict stay as they were until
    the screenshot has been read; then the image is the file
    "camera-capture.jpg" of type "image/jpeg" with the bytes read, and the
    verdict is cleared. *)
Theorem X4_capture_replaces_image_in_two_steps w imageSrc bytes :
  showCamera (ui w) = true ->
  Js.truthy imageSrc = true ->
  let w1 := step (ClickCapture (Some imageSrc)) w in
  let w2 := step (CaptureSettled (length (capturePending w)) (Some bytes)) w1 in
  ui w1 = ui ((setPreviewUrl (Some imageSrc) >> setShowCamera false) w) /\
  image (ui w1) = image (ui w) /\
  aiAnalysis (ui w1) = aiAnalysis (ui w) /\
  capturePending w1 = capturePending w ++ [imageSrc] /\
  image (ui w2) =
    Some {| file_name := "camera-capture.jpg"; file_type := "image/jpeg";
            file_bytes := bytes |} /\
  aiAnalysis (ui w2) = None /\
  previewUrl (ui w2) = Some imageSrc /\
  capturePending w2 = capturePending w /\
  toasts w2 = toasts w.
Proof.
  intros Hc Ht. unfold step, webcam_rendered. rewrite Hc.
  unfold capture. rewrite Ht. unfold seq. cbn.
  rewrite nth_error_last, settle_last. repeat split.
Qed.

(** X5.  The camera button is its own inverse: two clicks in a row give
    back the very same state, whether the button is enabled or not. *)
Theorem X5_camera_toggle_twice w :
  step ToggleCamera (step ToggleCamera w) = w.
Proof.
  destruct w as [[im pu lo ad de it ia sc ai isub] ts pp gp rp cp].
  unfold step, cameraToggle_disabled; cbn.
  destruct (ia || isub) eqn:E; cbn; rewrite E; [reflexivity|].
  cbn. now rewrite negb_involutive.
Qed.

(** *** [handleSubmit], the answer arrives *)

(** X6.  A successful submission does not reset the form: after the answer
    the state is the one before the click, the toast "Report submitted
    successfully!" is shown, and a further click on submit sends the same
    record again. *)
Theorem X6_successful_submission_keeps_form w img loc a response :
  image (ui w) = Some img -> location (ui w) = Some loc -> aiAnalysis (ui w) = Some a ->
  isSubmitting (ui w) = false ->
  Js.ok response = true ->
  let record := reportRequest (reportFormData (ui w) img loc a) in
  let w1 := step ClickSubmit w in
  let w2 := step (ReportSettled (length (reportPending w)) (Js.Fulfilled response)) w1 in
  ui w2 = ui w /\
  toasts w2 = toasts w ++ [ToastSuccess "Report submitted successfully!"] /\
  reportPending w2 = reportPending w /\
  reportPending (step ClickSubmit w2) = reportPending w2 ++ [record].
Proof.
  destruct w as [[im pu lo ad de it ia sc ai isub] ts pp gp rp cp]; cbn.
  intros -> -> -> -> Hok. unfold step; cbn.
  rewrite nth_error_last, settle_last.
  unfold handleSubmit_resume, seq. rewrite Hok. cbn. repeat split.
Qed.

(** *** [handleLocationSelect] *)

(** X7.  An answer of the geocoder with a non-empty display_name becomes the
    address, whatever the status of the answer is and without a toast;
    nothing else in the form changes. *)
Theorem X7_display_name_becomes_address n p response name w :
  nth_error (geocodePending w) n = Some p ->
  Js.json response = Js.json_ok (data_object (Some name)) ->
  Js.truthy name = true ->
  let w' := step (GeocodeSettled n (Js.Fulfilled response)) w in
  ui w' = ui (setAddress name w) /\
  address (ui w') = name /\
  toasts w' = toasts w /\
  geocodePending w' = settle n (geocodePending w).
Proof.
  intros Hn Hj Ht. unfold step. rewrite Hn.
  unfold handleLocationSelect_resume, seq. rewrite Hj, Ht. repeat split.
Qed.

(** X8.  Clicks on the map are never held back and never merged: after any
    number of them the location is the last point clicked, one geocoding
    call per click is in flight, oldest first, and the rest of the form,
    the toasts and the other calls are untouched. *)
Theorem X8_every_map_click_starts_a_geocoding w clicks latLng :
  let w' := run (map (fun c => ClickMap (Some c)) (clicks ++ [latLng])) w in
  ui w' = ui (setLocation (Some latLng) w) /\
  geocodePending w' =
    geocodePending w ++ map (fun c => (c, geocodeRequest c)) (clicks ++ [latLng]) /\
  toasts w' = toasts w /\
  predictPending w' = predictPending w /\
  reportPending w' = reportPending w /\
  capturePending w' = capturePending w.
Proof.
  revert w. induction clicks as [|c clicks IH]; intros w.
  - cbn. repeat split.
  - specialize (IH (step (ClickMap (Some c)) w)).
    cbn zeta in IH |- *.
    change (run (map (fun c0 => ClickMap (Some c0)) ((c :: clicks) ++ [latLng])) w)
      with (run (map (fun c0 => ClickMap (Some c0)) (clicks ++ [latLng]))
              (step (ClickMap (Some c)) w)).
    destruct IH as (Hu & Hg & Ht & Hp & Hr & Hc).
    rewrite Hu, Hg, Ht, Hp, Hr, Hc.
    destruct w as [[im pu lo ad de it ia sc ai isub] ts pp gp rp cp]; cbn.
    rewrite <- app_assoc. repeat split.
Qed.

(** *** What a session keeps true *)

Ltac open_step :=
  unfold step, handleImageChange, capture, capture_resume, handleScan, analyzeImage,
    handleMapClick, handleLocationSelect, handleSubmit, issueType_onChange,
    analyzeImage_resume, analyzeImage_catch, handleLocationSelect_resume,
    handleLocationSelect_catch, handleSubmit_resume, handleSubmit_catch,
    cameraToggle_disabled, fileInput_disabled, webcam_rendered, preview_rendered,
    scanButton_disabled, description_disabled, submitButton_disabled, seq, skip;
  cbn -[Js.truthy Js.ok String.eqb existsb nth_error settle Js.template];
  repeat match goal with
         | |- context [if ?b then _ else _] =>
             destruct b eqn:?;
             cbn -[Js.truthy Js.ok String.eqb existsb nth_error settle Js.template]
         | |- context [match ?x with _ => _ end] =>
             destruct x eqn:?;
             cbn -[Js.truthy Js.ok String.eqb existsb nth_error settle Js.template]
         end.

Ltac close_case :=
  try congruence; auto;
  repeat match goal with
         | H : nth_error ?l ?n = Some _ |- _ =>
             assert (l <> []) by (intros ->; destruct n; discriminate H); clear H
         | H : match ?x with Some _ => _ | None => _ end = true |- _ =>
             destruct x; [|discriminate H]
         | H : _ && _ = true |- _ => apply andb_prop in H; destruct H
         | H : _ || _ = false |- _ => apply orb_false_elim in H; destruct H
         | H : negb _ = true |- _ => apply negb_true_iff in H
         end;
  subst; try congruence; auto.

Lemma step_draft_consistent e w : draft_consistent w -> draft_consistent (step e w).
Proof.
  unfold draft_consistent.
  destruct w as [[im pu lo ad de it ia sc ai isub] ts pp gp rp cp]; cbn.
  intros (H1 & H2 & H3 & H4 & H5).
  destruct e; open_step.
  all: repeat split; intros; close_case.
Qed.

Lemma run_draft_consistent es w : draft_consistent w -> draft_consistent (run es w).
Proof.
  revert w. induction es as [|e es IH]; intros w H; simpl; [exact H|].
  apply IH, step_draft_consistent, H.
Qed.

Lemma initial_draft_consistent : draft_consistent initial.
Proof. unfold draft_consistent; cbn. repeat split; congruence. Qed.

(** X9.  In every state a session reaches: a verdict is only there when an
    image is, a classification is only in flight when an image is, an image
    is only there when a preview is, and a capture is only being read when
    a preview is. *)
Theorem X9_verdict_needs_image es :
  let w := run es initial in
  (aiAnalysis (ui w) <> None -> image (ui w) <> None) /\
  (predictPending w <> [] -> image (ui w) <> None) /\
  (image (ui w) <> None -> previewUrl (ui w) <> None) /\
  (capturePending w <> [] -> previewUrl (ui w) <> None).
Proof.
  intros w.
  destruct (run_draft_consistent es initial initial_draft_consistent)
    as (H1 & H2 & H3 & H4 & _).
  repeat split; assumption.
Qed.

Lemma step_keeps_image_and_location e w :
  (image (ui w) <> None -> image (ui (step e w)) <> None) /\
  (location (ui w) <> None -> location (ui (step e w)) <> None).
Proof.
  destruct w as [[im pu lo ad de it ia sc ai isub] ts pp gp rp cp]; cbn.
  destruct e; open_step.
  all: split; intros; close_case.
Qed.

(** X10.  No event takes the image or the location out of the draft: once
    present, each stays present (possibly replaced) for the rest of the
    session, whatever happens. *)
Theorem X10_image_and_location_are_never_removed es w :
  (image (ui w) <> None -> image (ui (run es w)) <> None) /\
  (location (ui w) <> None -> location (ui (run es w)) <> None).
Proof.
  revert w. induction es as [|e es IH]; intros w; simpl; [split; auto|].
  destruct (IH (step e w)) as [Hi Hl].
  destruct (step_keeps_image_and_location e w) as [Si Sl].
  split; auto.
Qed.

(** X11.  While a classification is in flight the camera is closed, and the
    controls that would replace the image or start another scan deliver
    nothing: choosing a file, opening the camera, capturing and scanning all
    leave the state as it is. *)
Theorem X11_classification_locks_the_image_controls es :
  isAnalyzing (ui (run es initial)) = true ->
  let w := run es initial in
  showCamera (ui w) = false /\
  (forall files objectUrl, step (ChooseFiles files objectUrl) w = w) /\
  step ToggleCamera w = w /\
  (forall getScreenshot, step (ClickCapture getScreenshot) w = w) /\
  step ClickScan w = w.
Proof.
  intros Ha w.
  destruct (run_draft_consistent es initial initial_draft_consistent)
    as (_ & _ & _ & _ & H5).
  fold w in Ha, H5. clearbody w. specialize (H5 Ha).
  unfold step, fileInput_disabled, cameraToggle_disabled, webcam_rendered,
    scanButton_disabled.
  rewrite Ha, H5. cbn. rewrite andb_false_r. repeat split.
Qed.

(** *** The calls in flight *)

Lemma In_settle {A} (x : A) n l : In x (settle n l) -> In x l.
Proof.
  unfold settle. revert l. induction n as [|n IH]; intros [|a l]; cbn; auto.
  intros [H|H]; [left; exact H | right; apply IH, H].
Qed.

Lemma Forall_settle {A} (P : A -> Prop) n l : Forall P l -> Forall P (settle n l).
Proof.
  rewrite !Forall_forall. intros H x Hx. apply H, (In_settle x n l Hx).
Qed.

Lemma step_predictPending e w :
  predictPending (step e w) = predictPending w \/
  (exists n, predictPending (step e w) = settle n (predictPending w)) \/
  (exists img,
      predictPending (step e w) =
        predictPending w ++ [(issueType (ui w), predictRequest img (issueType (ui w)))]).
Proof.
  destruct w as [[im pu lo ad de it ia sc ai isub] ts pp gp rp cp]; cbn.
  destruct e; open_step.
  all: first [ left; reflexivity
             | right; left; eexists; reflexivity
             | right; right; eexists; reflexivity ].
Qed.

Lemma run_predict_wellformed es w :
  In (issueType (ui w)) issueType_options ->
  Forall predict_wellformed (predictPending w) ->
  Forall predict_wellformed (predictPending (run es w)).
Proof.
  revert w. induction es as [|e es IH]; intros w Hin H; simpl; [exact H|].
  apply IH.
  - destruct (step_issueType e w) as [-> | (value & _ & Hv & ->)]; assumption.
  - destruct (step_predictPending e w) as [-> | [(n & ->) | (img & ->)]].
    + exact H.
    + apply Forall_settle, H.
    + apply Forall_app. split; [exact H|].
      constructor; [|constructor]. split; [exact Hin|]. exists img. reflexivity.
Qed.

(** X12.  Every classification call a session has in flight was built by
    [analyzeImage] for one of the three categories: its body is the image
    followed by that category, posted to [/predict]. *)
Theorem X12_classification_requests_are_wellformed es category req :
  In (category, req) (predictPending (run es initial)) ->
  In category issueType_options /\
  exists img,
    req = predictRequest img category /\
    url req = "/predict" /\ method req = "POST" /\
    body req = Some [("image", FormFile img); ("category", FormText category)].
Proof.
  intros Hin.
  assert (H : Forall predict_wellformed (predictPending (run es initial))).
  { apply run_predict_wellformed; [left; reflexivity | constructor]. }
  rewrite Forall_forall in H. destruct (H _ Hin) as (Hc & img & Hr).
  cbn [fst snd] in Hc, Hr. split; [exact Hc|]. exists img. rewrite Hr. repeat split.
Qed.

Lemma step_geocodePending e w :
  geocodePending (step e w) = geocodePending w \/
  (exists n, geocodePending (step e w) = settle n (geocodePending w)) \/
  (exists coords,
      geocodePending (step e w) = geocodePending w ++ [(coords, geocodeRequest coords)]).
Proof.
  destruct w as [[im pu lo ad de it ia sc ai isub] ts pp gp rp cp]; cbn.
  destruct e; open_step.
  all: first [ left; reflexivity
             | right; left; eexists; reflexivity
             | right; right; eexists; reflexivity ].
Qed.

Lemma run_geocode_wellformed es w :
  Forall geocode_wellformed (geocodePending w) ->
  Forall geocode_wellformed (geocodePending (run es w)).
Proof.
  revert w. induction es as [|e es IH]; intros w H; simpl; [exact H|].
  apply IH.
  destruct (step_geocodePending e w) as [-> | [(n & ->) | (coords & ->)]].
  - exact H.
  - apply Forall_settle, H.
  - apply Forall_app. split; [exact H|]. constructor; [reflexivity | constructor].
Qed.

(** X14.  Every geocoding call a session has in flight is the GET request
    [handleLocationSelect] builds for the point it is recorded with, and
    carries the header User-Agent: CivicIssueReporter/1.0. *)
Theorem X14_geocoding_requests_identify_the_client es coords req :
  In (coords, req) (geocodePending (run es initial)) ->
  req = geocodeRequest coords /\
  method req = "GET" /\
  body req = None /\
  In ("User-Agent", "CivicIssueReporter/1.0") (headers req).
Proof.
  intros Hin.
  assert (H : Forall geocode_wellformed (geocodePending (run es initial))).
  { apply run_geocode_wellformed. constructor. }
  rewrite Forall_forall in H. specialize (H _ Hin).
  unfold geocode_wellformed in H. cbn [fst snd] in H. rewrite H.
  repeat split. left. reflexivity.
Qed.

Lemma step_reportPending e w :
  (reportPending (step e w) = reportPending w /\
   (description (ui (step e w)) = description (ui w) \/ isSubmitting (ui w) = false)) \/
  (exists n, reportPending (step e w) = settle n (reportPending w) /\
             description (ui (step e w)) = description (ui w)) \/
  (exists img loc a,
      reportPending (step e w) =
        reportPending w ++ [reportRequest (reportFormData (ui w) img loc a)] /\
      description (ui (step e w)) = description (ui w) /\
      isSubmitting (ui w) = false).
Proof.
  destruct w as [[im pu lo ad de it ia sc ai isub] ts pp gp rp cp]; cbn.
  destruct e; open_step.
  all: first [ left; split; [reflexivity | left; reflexivity]
             | left; split; [reflexivity | right; (reflexivity || assumption)]
             | right; left; eexists; split; reflexivity
             | right; right; do 3 eexists; repeat split; (reflexivity || assumption) ].
Qed.

Lemma run_report_wellformed es w :
  in_flight_agrees w ->
  In (issueType (ui w)) issueType_options ->
  Forall (report_wellformed (description (ui w))) (reportPending w) ->
  Forall (report_wellformed (description (ui (run es w)))) (reportPending (run es w)).
Proof.
  revert w. induction es as [|e es IH]; intros w Hf Hin H; simpl; [exact H|].
  apply IH.
  - apply step_in_flight_agrees, Hf.
  - destruct (step_issueType e w) as [-> | (value & _ & Hv & ->)]; assumption.
  - destruct (step_reportPending e w)
      as [(-> & [-> | Hs]) | [(n & -> & ->) | (img & loc & a & -> & -> & Hs)]].
    + exact H.
    + destruct Hf as [_ Hr]. rewrite Hs in Hr.
      destruct (reportPending w); [constructor | discriminate Hr].
    + apply Forall_settle, H.
    + apply Forall_app. split; [exact H|].
      constructor; [|constructor].
      exists (ui w), img, loc, a. repeat split. exact Hin.
Qed.

(** X13.  Every submission a session has in flight goes to [/reports] with
    the six base fields and ai_probability, its type is one of the three
    categories, and its description is the one the form still shows: the
    text cannot be edited while the submission is under way. *)
Theorem X13_submission_in_flight_matches_the_form es req :
  In req (reportPending (run es initial)) ->
  url req = "/reports" /\ method req = "POST" /\
  exists formData,
    body req = Some formData /\
    FormData_get "description" formData =
      Some (FormText (description (ui (run es initial)))) /\
    (exists category, In category issueType_options /\
                      FormData_get "type" formData = Some (FormText category)) /\
    Forall (fun name => FormData_has name formData = true)
      ["image"; "type"; "latitude"; "longitude"; "address"; "description";
       "ai_probability"].
Proof.
  intros Hin.
  assert (H : Forall (report_wellformed (description (ui (run es initial))))
                (reportPending (run es initial))).
  { apply run_report_wellformed;
      [exact initial_in_flight_agrees | left; reflexivity | constructor]. }
  rewrite Forall_forall in H.
  destruct (H _ Hin) as (s & img & loc & a & Hc & Hd & ->).
  split; [reflexivity|]. split; [reflexivity|].
  exists (reportFormData s img loc a). split; [reflexivity|].
  unfold reportFormData. rewrite <- Hd.
  destruct (is_match a); cbn; (split; [reflexivity|]);
    (split; [exists (issueType s); split; [exact Hc | reflexivity]|]);
    repeat constructor.
Qed.

(** *** The map *)

Lemma step_location e w :
  location (ui (step e w)) =
    match e with
    | ClickMap (Some latLng) => Some latLng
    | _ => location (ui w)
    end.
Proof.
  destruct w as [[im pu lo ad de it ia sc ai isub] ts pp gp rp cp]; cbn.
  destruct e; open_step; reflexivity.
Qed.

Lemma page_run_form es p : form (page_run es p) = run es (form p).
Proof.
  revert p. induction es as [|e es IH]; intros p; simpl; [reflexivity|].
  now rewrite IH.
Qed.

Lemma page_run_marker es p :
  match location (ui (form p)) with
  | Some latLng => markerPosition p = latLng
  | None => markerPosition p = defaultCenter
  end ->
  match location (ui (form (page_run es p))) with
  | Some latLng => markerPosition (page_run es p) = latLng
  | None => markerPosition (page_run es p) = defaultCenter
  end.
Proof.
  revert p. induction es as [|e es IH]; intros p H; simpl; [exact H|].
  apply IH. unfold page_step; cbn [form markerPosition].
  rewrite step_location.
  destruct e; try exact H. destruct latLng; [reflexivity | exact H].
Qed.

(** X15.  The marker on the map and the location of the draft never part:
    until a point is selected the marker sits at the default centre and the
    draft has no location, and afterwards both are the last point clicked. *)
Theorem X15_marker_is_the_location es :
  let p := page_run es initialPage in
  form p = run es initial /\
  match location (ui (form p)) with
  | Some latLng => markerPosition p = latLng
  | None => markerPosition p = defaultCenter
  end.
Proof.
  intros p. split.
  - apply (page_run_form es initialPage).
  - apply page_run_marker. reflexivity.
Qed.

End Component.

(** ** The sample session, step by step *)

(** C2 (as the spec states it) fails in a running session: a click on
    Scan while the classification of the photo is outstanding, and a click
    on Submit while the submission of the draft is outstanding, are dropped
    by the disabled buttons.  The state is exactly as before, so nothing is
    rejected: no error is reported, the toasts shown are the ones shown
    before, and none of them is an error. *)
Lemma C2_busy_click_reports_nothing :
  let busy :=
    run Sample.show Sample.show
      [ChooseFiles [Sample.photo] Sample.photoUrl; ClickScan] initial in
  let submitting :=
    run Sample.show Sample.show
      [ChooseFiles [Sample.photo] Sample.photoUrl; ClickScan;
       PredictSettled 0 (Sample.answer 200 Sample.verdict);
       ClickMap (Some Sample.pointA); ClickSubmit] initial in
  (isAnalyzing (ui busy) = true /\
   length (predictPending busy) = 1 /\
   step Sample.show Sample.show ClickScan busy = busy /\
   toasts (step Sample.show Sample.show ClickScan busy) = []) /\
  (isSubmitting (ui submitting) = true /\
   length (reportPending submitting) = 1 /\
   step Sample.show Sample.show ClickSubmit submitting = submitting /\
   toasts (step Sample.show Sample.show ClickSubmit submitting) =
     [ToastSuccess "Confirmed: This is a drainage with <number>% confidence."]).
Proof. vm_compute. repeat split. Qed.

(** C5 (as the spec states it) fails: A is selected, then B; B's answer
    arrives and sets the address; A's answer arrives afterwards and replaces
    it, although the location is still B. *)
Lemma C5_stale_answer_overwrites :
  let selected :=
    run Sample.show Sample.show
      [ClickMap (Some Sample.pointA); ClickMap (Some Sample.pointB)] initial in
  let answeredB := step Sample.show Sample.show
                     (GeocodeSettled 1 (Sample.named "Brigade Road")) selected in
  let answeredA := step Sample.show Sample.show
                     (GeocodeSettled 0 (Sample.named "MG Road")) answeredB in
  map fst (geocodePending selected) = [Sample.pointA; Sample.pointB] /\
  map fst (geocodePending answeredB) = [Sample.pointA] /\
  address (ui answeredB) = "Brigade Road" /\
  location (ui answeredA) = Some Sample.pointB /\
  address (ui answeredA) = "MG Road" /\
  address (ui answeredA) <> "Brigade Road".
Proof. vm_compute. repeat split. discriminate. Qed.

(** C8 (as the spec states it) fails for a network error: the address
    becomes the empty string, not the "Address not found" placeholder. *)
Lemma C8_network_error_clears_address :
  let failed :=
    run Sample.show Sample.show
      [ClickMap (Some Sample.pointA); GeocodeSettled 0 (Sample.named "MG Road");
       ClickMap (Some Sample.pointB); GeocodeSettled 0 (Js.Rejected "Failed to fetch")]
      initial in
  network_error (Js.Rejected "Failed to fetch") = true /\
  location (ui failed) = Some Sample.pointB /\
  address (ui failed) = "" /\
  address (ui failed) <> "Address not found" /\
  toasts failed = [ToastError "Failed to fetch address"].
Proof. vm_compute. repeat split. discriminate. Qed.

(** The draft of a fresh session misses its image first. *)
Lemma C3_witness :
  (image initialState = None \/ location initialState = None \/
   aiAnalysis initialState = None) /\
  exists f,
    first_missing initialState = Some f /\
    handleSubmit Sample.show initialState initial =
      toast_error (MissingField_message f) initial /\
    toasts (handleSubmit Sample.show initialState initial) =
      toasts initial ++ [ToastError (MissingField_message f)] /\
    (forall g, MissingField_message g = MissingField_message f -> g = f) /\
    reportPending (handleSubmit Sample.show initialState initial) = reportPending initial /\
    ui (handleSubmit Sample.show initialState initial) = ui initial.
Proof.
  split; [left; reflexivity|].
  apply (C3_submit_names_first_missing_field Sample.show initialState initial).
  left; reflexivity.
Defined.


(** The complete draft survives a 500 from [/reports]. *)
Lemma C6_witness :
  let w :=
    run Sample.show Sample.show
      [ChooseFiles [Sample.photo] Sample.photoUrl; ClickScan;
       PredictSettled 0 (Sample.answer 200 Sample.verdict);
       ClickMap (Some Sample.pointA); GeocodeSettled 0 (Sample.named "MG Road")] initial in
  let w1 := step Sample.show Sample.show ClickSubmit w in
  let w2 := step Sample.show Sample.show (ReportSettled 0 Sample.serverError) w1 in
  (image (ui w) = Some Sample.photo /\ location (ui w) = Some Sample.pointA /\
   aiAnalysis (ui w) = Some Sample.verdict /\ isSubmitting (ui w) = false /\
   report_failed Sample.serverError = true) /\
  ui w2 = ui w /\
  reportPending (step Sample.show Sample.show ClickSubmit w2) = reportPending w1.
Proof.
  intros w w1 w2.
  pose proof (C6_failed_submission_keeps_draft Sample.show Sample.show w Sample.photo
                Sample.pointA Sample.verdict Sample.serverError
                eq_refl eq_refl eq_refl eq_refl eq_refl) as H.
  cbv zeta in H.
  destruct H as (H1 & _ & Hu & H2 & _ & _ & H3).
  split; [repeat split|]. split; [exact Hu|].
  refine (eq_trans H3 _). rewrite H2. symmetry. exact H1.
Defined.

(** Point A selected in a fresh session, and the geocoder unreachable. *)
Lemma C8_witness :
  let r : Js.Settled NominatimData := Js.Rejected "Failed to fetch" in
  let w1 := step Sample.show Sample.show (ClickMap (Some Sample.pointA)) initial in
  let w2 := step Sample.show Sample.show (GeocodeSettled 0 r) w1 in
  (no_display_name r = true \/ network_error r = true) /\
  location (ui w2) = Some Sample.pointA /\
  address (ui w2) = "".
Proof.
  intros r w1 w2.
  assert (Hr : no_display_name r = true \/ network_error r = true) by (right; reflexivity).
  pose proof (C8_geocoding_failure Sample.show Sample.show initial Sample.pointA r Hr) as H.
  cbv zeta in H.
  destruct H as (_ & Hl & _ & Hn & _).
  split; [exact Hr|]. split; [exact Hl | exact (proj1 (Hn eq_refl))].
Defined.

(** ** The further properties on the sample session *)

(** The photo is being classified and the network fails. *)
Lemma X1_witness :
  let w :=
    run Sample.show Sample.show
      [ChooseFiles [Sample.photo] Sample.photoUrl; ClickScan] initial in
  let r : Js.Settled AIAnalysis := Js.Rejected "Failed to fetch" in
  (nth_error (predictPending w) 0 = Some ("drainage", predictRequest Sample.photo "drainage") /\
   predict_failed r = true) /\
  image (ui (step Sample.show Sample.show (PredictSettled 0 r) w)) = Some Sample.photo /\
  isAnalyzing (ui (step Sample.show Sample.show (PredictSettled 0 r) w)) = false.
Proof.
  intros w r.
  pose proof (X1_failed_classification_keeps_draft Sample.show Sample.show 0 "drainage"
                (predictRequest Sample.photo "drainage") r w eq_refl eq_refl) as H.
  cbv zeta in H. destruct H as (Hu & _ & Hi & _).
  split; [split; reflexivity|]. split.
  - rewrite Hi. reflexivity.
  - rewrite Hu. reflexivity.
Defined.

(** The category is changed to "pothole" while the photo is being classified
    as drainage: the verdict is stored all the same, and the toast speaks of
    drainage. *)
Lemma X2_witness :
  let w :=
    run Sample.show Sample.show
      [ChooseFiles [Sample.photo] Sample.photoUrl; ClickScan; SelectIssueType "pothole"]
      initial in
  let response : Js.Response AIAnalysis :=
    {| Js.status := 200; Js.text := ""; Js.json := Js.json_ok Sample.verdict |} in
  let w' := step Sample.show Sample.show (PredictSettled 0 (Js.Fulfilled response)) w in
  (nth_error (predictPending w) 0 = Some ("drainage", predictRequest Sample.photo "drainage") /\
   Js.ok response = true /\ Js.json response = Js.json_ok Sample.verdict) /\
  aiAnalysis (ui w') = Some Sample.verdict /\
  issueType (ui w') = "pothole".
Proof.
  intros w response w'.
  pose proof (X2_verdict_stored_as_received Sample.show Sample.show 0 "drainage"
                (predictRequest Sample.photo "drainage") response Sample.verdict w
                eq_refl eq_refl eq_refl) as H.
  cbv zeta in H. destruct H as (_ & Ha & Hi & _).
  split; [repeat split|]. split.
  - exact Ha.
  - unfold w'. rewrite Hi. reflexivity.
Defined.

(** The camera is open and gives no screenshot. *)
Lemma X3_witness :
  let w := run Sample.show Sample.show [ToggleCamera] initial in
  (showCamera (ui w) = true /\ ((None : option string) = None \/ None = Some "")) /\
  step Sample.show Sample.show (ClickCapture None) w =
    toast_error "Failed to capture image" w.
Proof.
  intros w. split; [split; [reflexivity | left; reflexivity]|].
  apply (X3_capture_without_screenshot Sample.show Sample.show w None).
  - reflexivity.
  - left. reflexivity.
Defined.

(** The camera is open and gives a screenshot, which is then read. *)
Lemma X4_witness :
  let w := run Sample.show Sample.show [ToggleCamera] initial in
  let w1 := step Sample.show Sample.show (ClickCapture (Some "data:image/jpeg;base64,AA")) w in
  let w2 := step Sample.show Sample.show (CaptureSettled 0 (Some "JFIF")) w1 in
  (showCamera (ui w) = true /\ Js.truthy "data:image/jpeg;base64,AA" = true) /\
  image (ui w1) = None /\
  image (ui w2) =
    Some {| file_name := "camera-capture.jpg"; file_type := "image/jpeg";
            file_bytes := "JFIF" |}.
Proof.
  intros w w1 w2.
  pose proof (X4_capture_replaces_image_in_two_steps Sample.show Sample.show w
                "data:image/jpeg;base64,AA" "JFIF" eq_refl eq_refl) as H.
  cbv zeta in H. destruct H as (_ & H1 & _ & _ & H2 & _).
  split; [split; reflexivity|]. split; [exact H1 | exact H2].
Defined.

(** The complete draft is accepted by the server and is still there. *)
Lemma X6_witness :
  let w :=
    run Sample.show Sample.show
      [ChooseFiles [Sample.photo] Sample.photoUrl; ClickScan;
       PredictSettled 0 (Sample.answer 200 Sample.verdict);
       ClickMap (Some Sample.pointA); GeocodeSettled 0 (Sample.named "MG Road")] initial in
  let response : Js.Response unit :=
    {| Js.status := 201; Js.text := "created"; Js.json := Js.json_ok tt |} in
  let w2 := step Sample.show Sample.show (ReportSettled 0 (Js.Fulfilled response))
              (step Sample.show Sample.show ClickSubmit w) in
  (image (ui w) = Some Sample.photo /\ location (ui w) = Some Sample.pointA /\
   aiAnalysis (ui w) = Some Sample.verdict /\ isSubmitting (ui w) = false /\
   Js.ok response = true) /\
  ui w2 = ui w.
Proof.
  intros w response w2.
  pose proof (X6_successful_submission_keeps_form Sample.show Sample.show w Sample.photo
                Sample.pointA Sample.verdict response
                eq_refl eq_refl eq_refl eq_refl eq_refl) as H.
  cbv zeta in H. destruct H as (Hu & _).
  split; [repeat split | exact Hu].
Defined.

(** The geocoder names point A, with a status that is not a success. *)
Lemma X7_witness :
  let w := run Sample.show Sample.show [ClickMap (Some Sample.pointA)] initial in
  let response : Js.Response NominatimData :=
    {| Js.status := 503; Js.text := "";
       Js.json := Js.json_ok (data_object (Some "MG Road")) |} in
  (nth_error (geocodePending w) 0 =
     Some (Sample.pointA, geocodeRequest Sample.show Sample.pointA) /\
   Js.json response = Js.json_ok (data_object (Some "MG Road")) /\
   Js.truthy "MG Road" = true) /\
  address (ui (step Sample.show Sample.show (GeocodeSettled 0 (Js.Fulfilled response)) w))
    = "MG Road".
Proof.
  intros w response.
  pose proof (X7_display_name_becomes_address Sample.show Sample.show 0
                (Sample.pointA, geocodeRequest Sample.show Sample.pointA)
                response "MG Road" w eq_refl eq_refl eq_refl) as H.
  cbv zeta in H. destruct H as (_ & Ha & _).
  split; [repeat split | exact Ha].
Defined.

(** The photo is being classified. *)
Lemma X11_witness :
  let es := [ChooseFiles [Sample.photo] Sample.photoUrl; ClickScan] in
  let w := run Sample.show Sample.show es initial in
  isAnalyzing (ui w) = true /\
  showCamera (ui w) = false /\
  step Sample.show Sample.show ToggleCamera w = w.
Proof.
  intros es w.
  pose proof (X11_classification_locks_the_image_controls Sample.show Sample.show es
                eq_refl) as H.
  cbv zeta in H. destruct H as (Hc & _ & Ht & _).
  split; [reflexivity|]. split; [exact Hc | exact Ht].
Defined.

(** The classification call of the sample session. *)
Lemma X12_witness :
  let es := [ChooseFiles [Sample.photo] Sample.photoUrl; ClickScan] in
  let req := predictRequest Sample.photo "drainage" in
  In ("drainage", req) (predictPending (run Sample.show Sample.show es initial)) /\
  In "drainage" issueType_options /\
  exists img,
    req = predictRequest img "drainage" /\
    url req = "/predict" /\ method req = "POST" /\
    body req = Some [("image", FormFile img); ("category", FormText "drainage")].
Proof.
  intros es req.
  assert (Hin : In ("drainage", req) (predictPending (run Sample.show Sample.show es initial)))
    by (left; reflexivity).
  split; [exact Hin|].
  exact (X12_classification_requests_are_wellformed Sample.show Sample.show es
           "drainage" req Hin).
Defined.

(** The submission of the complete draft, while it is under way: typing
    into the description is not delivered. *)
Lemma X13_witness :
  let draft :=
    [ChooseFiles [Sample.photo] Sample.photoUrl; ClickScan;
     PredictSettled 0 (Sample.answer 200 Sample.verdict);
     ClickMap (Some Sample.pointA); TypeDescription "deep hole"] in
  let es := draft ++ [ClickSubmit; TypeDescription "edited"] in
  let req :=
    reportRequest
      (reportFormData Sample.show (ui (run Sample.show Sample.show draft initial))
         Sample.photo Sample.pointA Sample.verdict) in
  In req (reportPending (run Sample.show Sample.show es initial)) /\
  description (ui (run Sample.show Sample.show es initial)) = "deep hole" /\
  exists formData,
    body req = Some formData /\
    FormData_get "description" formData =
      Some (FormText (description (ui (run Sample.show Sample.show es initial)))).
Proof.
  intros draft es req.
  assert (Hin : In req (reportPending (run Sample.show Sample.show es initial)))
    by (vm_compute; left; reflexivity).
  split; [exact Hin|]. split; [vm_compute; reflexivity|].
  destruct (X13_submission_in_flight_matches_the_form Sample.show Sample.show es req Hin)
    as (_ & _ & formData & Hb & Hd & _).
  exists formData. split; [exact Hb | exact Hd].
Defined.

(** The geocoding call for point A. *)
Lemma X14_witness :
  let es := [ClickMap (Some Sample.pointA)] in
  let req := geocodeRequest Sample.show Sample.pointA in
  In (Sample.pointA, req) (geocodePending (run Sample.show Sample.show es initial)) /\
  In ("User-Agent", "CivicIssueReporter/1.0") (headers req).
Proof.
  intros es req.
  assert (Hin : In (Sample.pointA, req)
                  (geocodePending (run Sample.show Sample.show es initial)))
    by (left; reflexivity).
  split; [exact Hin|].
  destruct (X14_geocoding_requests_identify_the_client Sample.show Sample.show es
              Sample.pointA req Hin) as (_ & _ & _ & H).
  exact H.
Defined.
